(** * Dev bridge HTTP client (src/lib/dev-bridge/http-client.ts)

    A shallow embedding of the development bridge: the environment test
    [isDevBridgeAvailable], the HTTP invocation [invokeViaHttp], the
    liveness probe [healthCheck] and the status record [getBridgeStatus].

    JavaScript values are an inductive type with the language's truthiness;
    asynchronous functions are computations that read an explicit world
    (the hosting environment, the network and the engine), settle either
    fulfilled or rejected, and leave the list of their observable effects.  A rejection
    keeps that list: a thrown exception does not undo what was already
    logged or sent. *)

From Stdlib Require Import String List Bool PeanoNat NArith ZArith Lia.
From Stdlib Require Import DecimalString SpecFloat.
Import ListNotations.
Local Open Scope string_scope.
Local Open Scope list_scope.

(** ** JavaScript values *)

(** Plain data, as it is passed for [args] and found in a JSON body, and
    [undefined].  Numbers are IEEE-754 doubles, given by their specification
    type.  An object lists its own properties in enumeration order.  What
    [JSON.stringify] refuses (a cyclic object, a BigInt) is not a [value]. *)
#[warnings="-register-all"]
Inductive value : Type :=
| VUndefined
| VNull
| VBool (b : bool)
| VNum (x : spec_float)
| VStr (s : string)
| VArr (items : list value)
| VObj (props : list (string * value)).

Definition number_is_finite (x : spec_float) : bool :=
  match x with
  | S754_zero _ | S754_finite _ _ _ => true
  | S754_infinity _ | S754_nan => false
  end.

Definition string_is_empty (s : string) : bool :=
  match s with
  | EmptyString => true
  | String _ _ => false
  end.

(** ToBoolean: [undefined], [null], [false], [+0], [-0], [NaN] and the empty
    string are falsy; every other value, hence every object, is truthy. *)
Definition truthy (v : value) : bool :=
  match v with
  | VUndefined | VNull => false
  | VBool b => b
  | VNum (S754_zero _) | VNum S754_nan => false
  | VNum _ => true
  | VStr s => negb (string_is_empty s)
  | VArr _ | VObj _ => true
  end.

(** [a && b] and [a || b] yield one of their operands, not a boolean. *)
Definition js_and (a b : value) : value := if truthy a then b else a.
Definition js_or (a b : value) : value := if truthy a then a else b.

(** What [JSON.stringify] makes of plain data, up to the concrete text: the
    result is the JSON document that the produced text denotes, [None]
    standing for [undefined] (nothing is produced).  Properties whose value
    is [undefined] are dropped, [undefined] array items and non-finite
    numbers become [null], and [-0] is written [0].  On plain data the
    function does not throw; arguments on which it does are [unknown]s, see
    below. *)
Fixpoint JSON_document (v : value) : option value :=
  match v with
  | VUndefined => None
  | VNull => Some VNull
  | VBool b => Some (VBool b)
  | VNum x =>
      Some (if number_is_finite x
            then VNum (match x with S754_zero _ => S754_zero false | _ => x end)
            else VNull)
  | VStr s => Some (VStr s)
  | VArr items =>
      Some (VArr (map (fun x => match JSON_document x with
                                | Some j => j
                                | None => VNull
                                end) items))
  | VObj props =>
      Some (VObj ((fix members (ps : list (string * value)) :=
                     match ps with
                     | [] => []
                     | (k, x) :: rest =>
                         match JSON_document x with
                         | Some j => (k, j) :: members rest
                         | None => members rest
                         end
                     end) props))
  end.

(** ** Exceptions, completions and settled promises *)

(** An exception object: its [name] ("Error", "TypeError", "SyntaxError",
    ...) and its [message]. *)
Record exn : Type := mkExn { name : string; message : string }.

(** [new Error(msg)] *)
Definition Error (msg : string) : exn := {| name := "Error"; message := msg |}.

(** A [TypeError] as the engine raises it. *)
Definition TypeError (msg : string) : exn :=
  {| name := "TypeError"; message := msg |}.

(** How a synchronous operation ends: normally, with a value, or abruptly,
    with an exception thrown. *)
Inductive completion (A : Type) : Type :=
| Normal (a : A)
| Abrupt (e : exn).
Arguments Normal {A} a.
Arguments Abrupt {A} e.

Inductive settled (A : Type) : Type :=
| Fulfilled (a : A)
| Rejected (e : exn).
Arguments Fulfilled {A} a.
Arguments Rejected {A} e.

(** ** Arguments of type [unknown] *)

(** [args?: unknown] takes any value.  The code only logs it and hands it
    to [JSON.stringify] as the value of a property, so a value that is not
    plain data (a BigInt, an object that refers to itself, an object with a
    [toJSON] method, a function, ...) is given by what [JSON.stringify]
    makes of it there: an exception (a [TypeError] for a BigInt and for a
    circular structure), nothing (the property is left out, as for a
    function), or a document. *)
Inductive unknown : Type :=
| Plain (v : value)
| Other (as_property : completion (option value)).

Coercion Plain : value >-> unknown.

(** ** The wire types *)

(** [interface InvokeResponse { result?: unknown; error?: string }], and the
    JSON object a response of that type is. *)
Record InvokeResponse : Type := mkInvokeResponse {
  result : option value;
  error : option string
}.

Definition InvokeResponse_json (data : InvokeResponse) : value :=
  VObj (match result data with Some v => [("result", v)] | None => [] end
        ++ match error data with Some s => [("error", VStr s)] | None => [] end).

(** The second argument of [fetch]. *)
Record RequestInit : Type := mkRequestInit {
  method : string;
  headers : list (string * string);
  body : option value
}.

Record Request : Type := mkRequest {
  url : string;
  init : RequestInit
}.

(** An HTTP response as the client sees it: the status line, and what
    [response.json()] settles to: any JSON value, [null] included, or a
    rejection when the body is not JSON (an empty body, a page of HTML).
    The declared type of the parsed body, [InvokeResponse], is not checked
    at run time. *)
Record Response : Type := mkResponse {
  status : N;
  statusText : string;
  json : settled value
}.

(** [response.ok]: the status is in the range 200-299. *)
Definition ok (r : Response) : bool :=
  ((200 <=? status r) && (status r <=? 299))%N.

(** ** The hosting environment *)

(** The global [window] of a page: the [__TAURI__] property ([undefined] when
    the native shell did not inject it) and [location.hostname]. *)
Record Window : Type := mkWindow {
  TAURI : value;
  hostname : string
}.

(** [window] is [None] where [typeof window] is ["undefined"];
    [DEV] is [import.meta.env.DEV]. *)
Record Env : Type := mkEnv {
  window : option Window;
  DEV : bool
}.

(** ** The world of an asynchronous computation *)

(** The exceptions the engine raises by itself in this code: reading a
    property of [null] or [undefined], and converting to a string an object
    that has no usable [toString] or [valueOf]. *)
Inductive engine_error : Type :=
| Cannot_read_property (target : value) (key : string)
| Cannot_convert_to_primitive (target : value).

(** What is left to the JavaScript engine: how it prints a finite number
    other than zero, and how it words the [TypeError]s it raises. *)
Record Engine : Type := mkEngine {
  number_text : spec_float -> string;
  wording : engine_error -> string
}.

(** What a computation reads: the hosting environment, the network, which
    answers a request with a response or with an exception, and the
    engine. *)
Record World : Type := mkWorld {
  env : Env;
  network : Request -> settled Response;
  engine : Engine
}.

(** What a computation does that can be observed from outside. *)
Inductive event : Type :=
| ConsoleLog (text : string) (arg : unknown)
| ConsoleError (text : string) (e : exn)
| Fetch (req : Request).

(** An asynchronous computation settles and leaves the events it produced,
    in order. *)
Definition Async (A : Type) : Type := World -> settled A * list event.

Definition ret {A} (a : A) : Async A := fun _ => (Fulfilled a, []).

Definition throw {A} (e : exn) : Async A := fun _ => (Rejected e, []).

Definition bind {A B} (c : Async A) (k : A -> Async B) : Async B :=
  fun w =>
    match c w with
    | (Fulfilled a, evs) => let (r, evs') := k a w in (r, evs ++ evs')
    | (Rejected e, evs) => (Rejected e, evs)
    end.

Definition try_catch {A} (c : Async A) (handler : exn -> Async A) : Async A :=
  fun w =>
    match c w with
    | (Fulfilled a, evs) => (Fulfilled a, evs)
    | (Rejected e, evs) => let (r, evs') := handler e w in (r, evs ++ evs')
    end.

Declare Scope async_scope.
Delimit Scope async_scope with async.
Notation "x <- c ;; k" := (bind c (fun x => k))
  (at level 61, c at next level, right associativity) : async_scope.
Notation "c ;;; k" := (bind c (fun _ => k))
  (at level 61, right associativity) : async_scope.
Local Open Scope async_scope.

Definition outcome {A} (r : settled A * list event) : settled A := fst r.
Definition events {A} (r : settled A * list event) : list event := snd r.

(** The requests sent, among the events. *)
Fixpoint requests (evs : list event) : list Request :=
  match evs with
  | [] => []
  | Fetch req :: rest => req :: requests rest
  | _ :: rest => requests rest
  end.

Definition console_log (text : string) (arg : unknown) : Async unit :=
  fun _ => (Fulfilled tt, [ConsoleLog text arg]).

Definition console_error (text : string) (e : exn) : Async unit :=
  fun _ => (Fulfilled tt, [ConsoleError text e]).

(** [await fetch(url, init)]: the request goes out, then the network
    answers with a response or the call rejects. *)
Definition fetch (u : string) (i : RequestInit) : Async Response :=
  fun w =>
    let req := {| url := u; init := i |} in
    (network w req, [Fetch req]).

(** [await response.json()] *)
Definition response_json (r : Response) : Async value :=
  fun _ => (json r, []).

(** A synchronous operation inside an asynchronous function: an exception
    it throws rejects the promise, unless caught. *)
Definition complete {A} (c : completion A) : Async A :=
  fun _ => (match c with
            | Normal a => Fulfilled a
            | Abrupt e => Rejected e
            end, []).

(** The decimal text of a status code inside a template literal. *)
Definition number_to_string (n : N) : string :=
  NilZero.string_of_uint (N.to_uint n).

(** ** Operations of the language *)

(** [JSON.stringify] of an object literal whose property values are of any
    type: the members are serialised in order, the first exception ends
    the call, and a property that serialises to nothing is left out. *)
Definition serialized (x : unknown) : completion (option value) :=
  match x with
  | Plain v => Normal (JSON_document v)
  | Other c => c
  end.

Fixpoint stringify_members (props : list (string * unknown))
  : completion (list (string * value)) :=
  match props with
  | [] => Normal []
  | (k, x) :: rest =>
      match serialized x with
      | Abrupt e => Abrupt e
      | Normal o =>
          match stringify_members rest with
          | Abrupt e => Abrupt e
          | Normal members =>
              Normal (match o with
                      | Some j => (k, j) :: members
                      | None => members
                      end)
          end
      end
  end.

Definition JSON_stringify (props : list (string * unknown))
  : completion (option value) :=
  match stringify_members props with
  | Normal members => Normal (Some (VObj members))
  | Abrupt e => Abrupt e
  end.

(** [data[key]] for a key that no prototype defines, as "error" and
    "result" are: the own property of an object, [undefined] when there is
    none or when [data] is a number, a string, a boolean or an array; on
    [null] and [undefined] the read raises a [TypeError]. *)
Fixpoint lookup (props : list (string * value)) (key : string) : option value :=
  match props with
  | [] => None
  | (k, v) :: rest => if String.eqb k key then Some v else lookup rest key
  end.

Definition field (data : value) (key : string) : value :=
  match data with
  | VObj props =>
      match lookup props key with
      | Some v => v
      | None => VUndefined
      end
  | _ => VUndefined
  end.

Definition property_of (eng : Engine) (data : value) (key : string)
  : completion value :=
  match data with
  | VUndefined | VNull =>
      Abrupt (TypeError (wording eng (Cannot_read_property data key)))
  | _ => Normal (field data key)
  end.

(** ToString on plain data.  An array is joined with commas, [null] and
    [undefined] items giving the empty text.  A plain object gives
    "[object Object]" through [Object.prototype.toString], unless it has an
    own property "toString": plain data is never callable, [valueOf] then
    returns the object itself, and the conversion raises a [TypeError]. *)
Fixpoint to_string (eng : Engine) (v : value) : completion string :=
  match v with
  | VUndefined => Normal "undefined"
  | VNull => Normal "null"
  | VBool true => Normal "true"
  | VBool false => Normal "false"
  | VNum x =>
      Normal (match x with
              | S754_nan => "NaN"
              | S754_zero _ => "0"
              | S754_infinity false => "Infinity"
              | S754_infinity true => "-Infinity"
              | S754_finite _ _ _ => number_text eng x
              end)
  | VStr s => Normal s
  | VArr items =>
      (fix join (xs : list value) : completion string :=
         match xs with
         | [] => Normal ""
         | x :: rest =>
             match match x with
                   | VUndefined | VNull => Normal ""
                   | _ => to_string eng x
                   end with
             | Abrupt e => Abrupt e
             | Normal s =>
                 match rest with
                 | [] => Normal s
                 | _ :: _ =>
                     match join rest with
                     | Abrupt e => Abrupt e
                     | Normal t => Normal (s ++ "," ++ t)%string
                     end
                 end
             end
         end) items
  | VObj props =>
      match lookup props "toString" with
      | Some _ =>
          Abrupt (TypeError (wording eng (Cannot_convert_to_primitive v)))
      | None => Normal "[object Object]"
      end
  end.

(** [new Error(msg)] for a message of any type: the message is converted
    with ToString, unless it is [undefined]. *)
Definition new_Error_of (eng : Engine) (msg : value) : completion exn :=
  match msg with
  | VUndefined => Normal (Error "")
  | _ =>
      match to_string eng msg with
      | Normal s => Normal (Error s)
      | Abrupt e => Abrupt e
      end
  end.

Definition read_property (data : value) (key : string) : Async value :=
  fun w => complete (property_of (engine w) data key) w.

Definition new_Error (msg : value) : Async exn :=
  fun w => complete (new_Error_of (engine w) msg) w.

(** ** The module *)

Definition BRIDGE_URL : string := "http://127.0.0.1:3030/invoke".

Definition isDevBridgeAvailable (e : Env) : bool :=
  match window e with
  | None => false
  | Some win =>
      negb (truthy (TAURI win))
      && (DEV e
          || String.eqb (hostname win) "localhost"
          || String.eqb (hostname win) "127.0.0.1")
  end.

(** The options both calls of [fetch] pass, but for the body. *)
Definition post_json (text : option value) : RequestInit :=
  {| method := "POST";
     headers := [("Content-Type", "application/json")];
     body := text |}.

Definition invokeViaHttp (cmd : string) (args : unknown) : Async value :=
  console_log ("[DevBridge] HTTP 调用: " ++ cmd) args ;;;
  try_catch
    (text <- complete (JSON_stringify [("cmd", Plain (VStr cmd));
                                       ("args", args)]) ;;
     response <- fetch BRIDGE_URL (post_json text) ;;
     if negb (ok response) then
       throw (Error ("HTTP " ++ number_to_string (status response)
                     ++ ": " ++ statusText response))
     else
       data <- response_json response ;;
       err <- read_property data "error" ;;
       if truthy err then
         msg <- read_property data "error" ;;
         e <- new_Error msg ;;
         throw e
       else
         read_property data "result")
    (fun e =>
       console_error ("[DevBridge] HTTP 调用失败: " ++ cmd) e ;;;
       throw e).

Definition healthCheck : Async bool :=
  try_catch
    (text <- complete (JSON_stringify [("cmd", Plain (VStr "get_server_status"))]) ;;
     response <- fetch BRIDGE_URL (post_json text) ;;
     ret (ok response))
    (fun _ => ret false).

Inductive Mode : Type := tauri | http | mock.

(** The fields are declared [boolean]; [available] and [connected] in fact
    hold whatever [hasTauri] evaluates to. *)
Record BridgeStatus : Type := mkBridgeStatus {
  available : value;
  connected : value;
  mode : Mode
}.

Definition hasTauri (e : Env) : value :=
  match window e with
  | None => VBool false
  | Some win => js_and (VBool true) (TAURI win)
  end.

Definition getBridgeStatus (e : Env) : BridgeStatus :=
  let devAvailable := isDevBridgeAvailable e in
  {| available := js_or (hasTauri e) (VBool devAvailable);
     connected := hasTauri e;
     mode := if truthy (hasTauri e) then tauri
             else if devAvailable then http else mock |}.

(** ** Sample worlds *)

Module Samples.

(** A page served by the development server, opened in a browser. *)
Definition browser_dev : Env :=
  {| window := Some {| TAURI := VUndefined; hostname := "localhost" |};
     DEV := true |}.

(** A development build opened from another machine of the network. *)
Definition browser_dev_lan : Env :=
  {| window := Some {| TAURI := VUndefined; hostname := "192.168.1.20" |};
     DEV := true |}.

(** A production build on a public host. *)
Definition browser_production : Env :=
  {| window := Some {| TAURI := VUndefined; hostname := "example.com" |};
     DEV := false |}.

(** The native shell: the marker is an object. *)
Definition native_shell : Env :=
  {| window := Some {| TAURI := VObj [("core", VObj [])];
                       hostname := "tauri.localhost" |};
     DEV := false |}.

(** No [window] at all (server-side rendering, a test runner). *)
Definition no_window : Env := {| window := None; DEV := false |}.

Definition connection_refused : exn :=
  {| name := "TypeError"; message := "Failed to fetch" |}.

Definition not_json : exn :=
  {| name := "SyntaxError"; message := "Unexpected token < in JSON" |}.

(** Nothing listens on the port. *)
Definition backend_down (_ : Request) : settled Response :=
  Rejected connection_refused.

(** A backend that answers every request with the same response. *)
Definition backend_replies (r : Response) (_ : Request) : settled Response :=
  Fulfilled r.

Definition running : Response :=
  {| status := 200; statusText := "OK";
     json := Fulfilled (InvokeResponse_json
                         {| result := Some (VObj [("running", VBool true)]);
                            error := None |}) |}.

Definition unknown_command : Response :=
  {| status := 200; statusText := "OK";
     json := Fulfilled (InvokeResponse_json
                         {| result := None;
                            error := Some "unknown command" |}) |}.

Definition empty_object : Response :=
  {| status := 200; statusText := "OK";
     json := Fulfilled (InvokeResponse_json
                         {| result := None; error := None |}) |}.

Definition empty_error : Response :=
  {| status := 200; statusText := "OK";
     json := Fulfilled (InvokeResponse_json
                         {| result := None; error := Some "" |}) |}.


Definition server_error : Response :=
  {| status := 500; statusText := "Internal Server Error";
     json := Fulfilled (InvokeResponse_json
                         {| result := None; error := Some "panic" |}) |}.

Definition html_page : Response :=
  {| status := 200; statusText := "OK"; json := Rejected not_json |}.

(** A 200 whose body is the JSON text [null]. *)
Definition null_body : Response :=
  {| status := 200; statusText := "OK"; json := Fulfilled VNull |}.

(** A 204: there is no body to read as JSON. *)
Definition nothing_to_parse : exn :=
  {| name := "SyntaxError"; message := "Unexpected end of JSON input" |}.

Definition no_content : Response :=
  {| status := 204; statusText := "No Content";
     json := Rejected nothing_to_parse |}.

(** A 200 whose [error] is an object with an own "toString". *)
Definition odd_error : Response :=
  {| status := 200; statusText := "OK";
     json := Fulfilled (VObj [("error", VObj [("toString", VNull)])]) |}.

(** An engine with the wording of V8.  Its number printing is exact on the
    integers below 10^21 and leaves the other numbers, which no sample
    holds, without text. *)
Definition v8_wording (c : engine_error) : string :=
  match c with
  | Cannot_read_property target key =>
      "Cannot read properties of "
      ++ match target with VNull => "null" | _ => "undefined" end
      ++ " (reading '" ++ key ++ "')"
  | Cannot_convert_to_primitive _ =>
      "Cannot convert object to primitive value"
  end.

Definition integer_text (x : spec_float) : string :=
  match x with
  | S754_finite s m e =>
      match e with
      | Zneg _ => ""
      | _ => (if s then "-" else "")
             ++ NilZero.string_of_uint
                  (N.to_uint (Z.to_N (Zpos m * 2 ^ e)))
      end
  | _ => ""
  end.

Definition v8 : Engine :=
  {| number_text := integer_text; wording := v8_wording |}.

(** An argument [JSON.stringify] refuses: the BigInt [1n]. *)
Definition a_bigint : unknown :=
  Other (Abrupt (TypeError "Do not know how to serialize a BigInt")).

(** The development page with nothing listening on the port. *)
Definition dev_backend_down : World :=
  {| env := browser_dev; network := backend_down; engine := v8 |}.

(** The development page facing a backend that always answers [r]. *)
Definition dev_backend (r : Response) : World :=
  {| env := browser_dev; network := backend_replies r; engine := v8 |}.

(** A production page on a public host, the backend running all the same. *)
Definition production_backend_running : World :=
  {| env := browser_production; network := backend_replies running;
     engine := v8 |}.

(** No [window], nothing listening. *)
Definition no_window_backend_down : World :=
  {| env := no_window; network := backend_down; engine := v8 |}.

End Samples.

(** ** Vocabulary of the statements *)

(** The options and the request of an invocation with plain arguments, and
    those of the probe. *)
Definition invoke_init (cmd : string) (args : value) : RequestInit :=
  post_json (JSON_document (VObj [("cmd", VStr cmd); ("args", args)])).

Definition healthCheck_init : RequestInit :=
  post_json (JSON_document (VObj [("cmd", VStr "get_server_status")])).

Definition invoke_request (cmd : string) (args : value) : Request :=
  {| url := BRIDGE_URL; init := invoke_init cmd args |}.

Definition healthCheck_request : Request :=
  {| url := BRIDGE_URL; init := healthCheck_init |}.

(** The request of an invocation with arguments of any type, when
    [JSON.stringify] accepts them, else the exception it throws. *)
Definition request_of (cmd : string) (args : unknown) : completion Request :=
  match JSON_stringify [("cmd", Plain (VStr cmd)); ("args", args)] with
  | Normal text => Normal {| url := BRIDGE_URL; init := post_json text |}
  | Abrupt e => Abrupt e
  end.

(** The three events of an invocation: the line logged on entry, the
    request, and the line logged by the handler before it throws again. *)
Definition invoke_started (cmd : string) (args : unknown) : event :=
  ConsoleLog ("[DevBridge] HTTP 调用: " ++ cmd) args.

Definition invoke_sent (cmd : string) (args : value) : event :=
  Fetch (invoke_request cmd args).

Definition invoke_failed (cmd : string) (e : exn) : event :=
  ConsoleError ("[DevBridge] HTTP 调用失败: " ++ cmd) e.

(** An invocation read as a function of what it is answered: what a parsed
    body, a response and the whole exchange make it settle to, and the
    events it leaves. *)
Definition settle_data (eng : Engine) (data : value) : settled value :=
  match property_of eng data "error" with
  | Abrupt e => Rejected e
  | Normal err =>
      if truthy err then
        match new_Error_of eng err with
        | Normal e | Abrupt e => Rejected e
        end
      else Fulfilled (field data "result")
  end.

Definition settle_response (eng : Engine) (r : Response) : settled value :=
  if ok r then
    match json r with
    | Fulfilled data => settle_data eng data
    | Rejected e => Rejected e
    end
  else Rejected (Error ("HTTP " ++ number_to_string (status r)
                        ++ ": " ++ statusText r)).

Definition settle_invocation
    (w : World) (cmd : string) (args : unknown) : settled value :=
  match request_of cmd args with
  | Abrupt e => Rejected e
  | Normal req =>
      match network w req with
      | Fulfilled r => settle_response (engine w) r
      | Rejected e => Rejected e
      end
  end.

Definition invocation_events
    (w : World) (cmd : string) (args : unknown) : list event :=
  invoke_started cmd args
  :: match request_of cmd args with
     | Normal req => [Fetch req]
     | Abrupt _ => []
     end
  ++ match settle_invocation w cmd args with
     | Rejected e => [invoke_failed cmd e]
     | Fulfilled _ => []
     end.

(** The same network seen from another hosting environment. *)
Definition with_env (e : Env) (w : World) : World :=
  {| env := e; network := network w; engine := engine w |}.

(** The privileged-channel marker is present: there is a [window] and its
    [__TAURI__] property holds a truthy value (the native shell injects an
    object). *)
Definition marker_present (e : Env) : bool :=
  match window e with
  | Some win => truthy (TAURI win)
  | None => false
  end.

(** The recognised local-development hosts. *)
Definition local_development_host (h : string) : bool :=
  String.eqb h "localhost" || String.eqb h "127.0.0.1".

(** The transport modes under the names of the design: Native is [tauri],
    Network is [http], Unavailable is [mock]. *)
Definition Native : Mode := tauri.
Definition Network : Mode := http.
Definition Unavailable : Mode := mock.

(** The decision policy in the words of the design: the marker first, then
    the host name, nothing else. *)
Definition policy_by_marker_and_host (e : Env) : Mode :=
  if marker_present e then Native
  else match window e with
       | Some win =>
           if local_development_host (hostname win) then Network
           else Unavailable
       | None => Unavailable
       end.

(** The decision the code takes: a development build counts like a local
    host. *)
Definition policy_of_the_code (e : Env) : Mode :=
  match window e with
  | None => Unavailable
  | Some win =>
      if truthy (TAURI win) then Native
      else if DEV e || local_development_host (hostname win) then Network
      else Unavailable
  end.

(** The ways an invocation fails, each with the exception it ends in:
    [JSON.stringify] refuses the arguments, the transport raises, the status
    is not 2xx, the body cannot be read as JSON, the body is [null] (reading
    its [error] raises), or the body carries a truthy [error], which
    [new Error] converts to the message or fails to convert. *)
Inductive invoke_failure (w : World) (cmd : string) (args : unknown)
  : exn -> Prop :=
| arguments_refused (e : exn) :
    request_of cmd args = Abrupt e ->
    invoke_failure w cmd args e
| transport_raised (req : Request) (e : exn) :
    request_of cmd args = Normal req ->
    network w req = Rejected e ->
    invoke_failure w cmd args e
| status_not_2xx (req : Request) (r : Response) :
    request_of cmd args = Normal req ->
    network w req = Fulfilled r ->
    ok r = false ->
    invoke_failure w cmd args
      (Error ("HTTP " ++ number_to_string (status r) ++ ": " ++ statusText r))
| body_unreadable (req : Request) (r : Response) (e : exn) :
    request_of cmd args = Normal req ->
    network w req = Fulfilled r ->
    ok r = true ->
    json r = Rejected e ->
    invoke_failure w cmd args e
| body_without_properties
    (req : Request) (r : Response) (data : value) (e : exn) :
    request_of cmd args = Normal req ->
    network w req = Fulfilled r ->
    ok r = true ->
    json r = Fulfilled data ->
    property_of (engine w) data "error" = Abrupt e ->
    invoke_failure w cmd args e
| application_error
    (req : Request) (r : Response) (data err : value) (e : exn) :
    request_of cmd args = Normal req ->
    network w req = Fulfilled r ->
    ok r = true ->
    json r = Fulfilled data ->
    property_of (engine w) data "error" = Normal err ->
    truthy err = true ->
    new_Error_of (engine w) err = Normal e
    \/ new_Error_of (engine w) err = Abrupt e ->
    invoke_failure w cmd args e.

(** "Never throws": the caller gets a value back. *)
Definition returns_a_value (cmd : string) (args : unknown) (w : World) : Prop :=
  exists v, outcome (invokeViaHttp cmd args w) = Fulfilled v.

(** "Any HTTP response is reachable": whenever the network answers the probe
    with a response, the probe says [true]. *)
Definition any_response_is_reachable (w : World) : Prop :=
  forall r, network w healthCheck_request = Fulfilled r ->
            outcome (healthCheck w) = Fulfilled true.

(** "Exactly one request on every call". *)
Definition sends_one_request (cmd : string) (args : unknown) (w : World) : Prop :=
  exists req, requests (events (invokeViaHttp cmd args w)) = [req].

(** "Unavailable fails at once": under mode Unavailable the invocation
    fails with the fixed message and sends nothing. *)
Definition unavailable_fails_at_once
    (cmd : string) (args : unknown) (w : World) : Prop :=
  mode (getBridgeStatus (env w)) = Unavailable ->
  outcome (invokeViaHttp cmd args w) = Rejected (Error "no transport available")
  /\ requests (events (invokeViaHttp cmd args w)) = [].

(** * Credential card (src/components/provider-pool/CredentialCard.tsx)

    The logic of the card component: its state, the three click handlers
    and what they do to the state, the choice of what the two folding
    panels show, and the label tables.  The markup itself is not modelled. *)

Module CredentialCard.

(** ** What the component receives *)

(** [UsageInfo] and [KiroFingerprintInfo] are declared outside this file;
    they are given here with the fields the component itself names: those
    of the placeholder it builds, and those it reads from a fingerprint. *)
Record UsageInfo : Type := mkUsageInfo {
  subscriptionTitle : string;
  usageLimit : spec_float;
  currentUsage : spec_float;
  balance : spec_float;
  isLowBalance : bool
}.

Record KiroFingerprintInfo : Type := mkKiroFingerprintInfo {
  machine_id : string;
  machine_id_short : string;
  source : string;
  auth_method : string
}.

(** The fields of [credential] that the code below reads. *)
Record CredentialDisplay : Type := mkCredentialDisplay {
  uuid : string;
  credential_type : string
}.

(** ** Promises and what lies outside the component *)

(** What a [catch] clause receives: an [Error] object or any other value. *)
Inductive thrown : Type :=
| ThrownError (e : exn)
| ThrownValue (v : value).

(** What becomes of an awaited promise: it resolves, it rejects, or it
    never settles. *)
Inductive reply (A : Type) : Type :=
| Resolves (a : A)
| Throws (t : thrown)
| Pending.
Arguments Resolves {A} a.
Arguments Throws {A} t.
Arguments Pending {A}.

(** What the handlers depend on: the engine, for the conversion
    [String(...)], the two backend queries and the clipboard. *)
Record Host : Type := mkHost {
  host_engine : Engine;
  usageApi_getKiroUsage : string -> reply UsageInfo;
  getKiroCredentialFingerprint : string -> reply KiroFingerprintInfo;
  navigator_clipboard_writeText : string -> reply unit
}.

(** ** State and effects *)

(** The eight [useState] cells. *)
Record State : Type := mkState {
  usageExpanded : bool;
  usageLoading : bool;
  usageInfo : option UsageInfo;
  usageError : option string;
  fingerprintInfo : option KiroFingerprintInfo;
  fingerprintLoading : bool;
  fingerprintExpanded : bool;
  fingerprintCopied : bool
}.

(** The state of a card that was just mounted. *)
Definition initial : State :=
  {| usageExpanded := false; usageLoading := false;
     usageInfo := None; usageError := None;
     fingerprintInfo := None; fingerprintLoading := false;
     fingerprintExpanded := false; fingerprintCopied := false |}.

(** What a handler does, in order: calls of the state setters, calls to the
    outside, a line on the console, a timer with the effects of its
    callback. *)
#[warnings="-register-all"]
Inductive effect : Type :=
| SetUsageExpanded (b : bool)
| SetUsageLoading (b : bool)
| SetUsageInfo (info : option UsageInfo)
| SetUsageError (text : option string)
| SetFingerprintInfo (info : option KiroFingerprintInfo)
| SetFingerprintLoading (b : bool)
| SetFingerprintExpanded (b : bool)
| SetFingerprintCopied (b : bool)
| Call_getKiroUsage (id : string)
| Call_getKiroCredentialFingerprint (id : string)
| Call_writeText (text : string)
| Console_error (text : string) (t : thrown)
| SetTimeout (callback : list effect) (ms : N).

(** A setter replaces its cell; the other effects leave the state alone (a
    timer acts when it fires, see [timer_fires]). *)
Definition apply_effect (s : State) (e : effect) : State :=
  match e with
  | SetUsageExpanded b =>
      mkState b (usageLoading s) (usageInfo s) (usageError s)
        (fingerprintInfo s) (fingerprintLoading s) (fingerprintExpanded s)
        (fingerprintCopied s)
  | SetUsageLoading b =>
      mkState (usageExpanded s) b (usageInfo s) (usageError s)
        (fingerprintInfo s) (fingerprintLoading s) (fingerprintExpanded s)
        (fingerprintCopied s)
  | SetUsageInfo i =>
      mkState (usageExpanded s) (usageLoading s) i (usageError s)
        (fingerprintInfo s) (fingerprintLoading s) (fingerprintExpanded s)
        (fingerprintCopied s)
  | SetUsageError t =>
      mkState (usageExpanded s) (usageLoading s) (usageInfo s) t
        (fingerprintInfo s) (fingerprintLoading s) (fingerprintExpanded s)
        (fingerprintCopied s)
  | SetFingerprintInfo i =>
      mkState (usageExpanded s) (usageLoading s) (usageInfo s) (usageError s)
        i (fingerprintLoading s) (fingerprintExpanded s)
        (fingerprintCopied s)
  | SetFingerprintLoading b =>
      mkState (usageExpanded s) (usageLoading s) (usageInfo s) (usageError s)
        (fingerprintInfo s) b (fingerprintExpanded s)
        (fingerprintCopied s)
  | SetFingerprintExpanded b =>
      mkState (usageExpanded s) (usageLoading s) (usageInfo s) (usageError s)
        (fingerprintInfo s) (fingerprintLoading s) b
        (fingerprintCopied s)
  | SetFingerprintCopied b =>
      mkState (usageExpanded s) (usageLoading s) (usageInfo s) (usageError s)
        (fingerprintInfo s) (fingerprintLoading s) (fingerprintExpanded s)
        b
  | Call_getKiroUsage _ | Call_getKiroCredentialFingerprint _
  | Call_writeText _ | Console_error _ _ | SetTimeout _ _ => s
  end.

Definition apply_effects (s : State) (effs : list effect) : State :=
  fold_left apply_effect effs s.

(** The timers set among some effects, and the state once they fired. *)
Fixpoint timers (effs : list effect) : list (list effect * N) :=
  match effs with
  | [] => []
  | SetTimeout callback ms :: rest => (callback, ms) :: timers rest
  | _ :: rest => timers rest
  end.

Definition timer_fires (s : State) (timer : list effect * N) : State :=
  apply_effects s (fst timer).

(** The calls to the outside, among some effects. *)
Fixpoint calls (effs : list effect) : list effect :=
  match effs with
  | [] => []
  | Call_getKiroUsage id :: rest => Call_getKiroUsage id :: calls rest
  | Call_getKiroCredentialFingerprint id :: rest =>
      Call_getKiroCredentialFingerprint id :: calls rest
  | Call_writeText text :: rest => Call_writeText text :: calls rest
  | _ :: rest => calls rest
  end.

(** The effects up to the first call to the outside, that is, up to the
    point where the handler waits. *)
Fixpoint before_await (effs : list effect) : list effect :=
  match effs with
  | [] => []
  | Call_getKiroUsage _ :: _ | Call_getKiroCredentialFingerprint _ :: _
  | Call_writeText _ :: _ => []
  | e :: rest => e :: before_await rest
  end.

(** ** Handlers as tasks *)

(** An [async] arrow function of the component: it reads the host, settles,
    and leaves its effects. *)
Definition Task (A : Type) : Type := Host -> reply A * list effect.

Definition done {A} (a : A) : Task A := fun _ => (Resolves a, []).

(** A task that waits for a promise that never settles goes no further. *)
Definition and_then {A B} (c : Task A) (k : A -> Task B) : Task B :=
  fun h =>
    match c h with
    | (Resolves a, effs) => let (r, effs') := k a h in (r, effs ++ effs')
    | (Throws t, effs) => (Throws t, effs)
    | (Pending, effs) => (Pending, effs)
    end.

(** [try { c } catch (e) { handler e } finally { last }]: the handler runs
    when [c] throws, [last] runs once [c] or the handler is through, and the
    task settles as [c] or the handler did unless [last] itself throws.
    While [c] or the handler waits, neither the handler nor [last] runs. *)
Definition try_catch_finally {A}
    (c : Task A) (handler : thrown -> Task A) (last : Task unit) : Task A :=
  fun h =>
    let (r, effs) :=
      match c h with
      | (Throws t, effs) => let (r, effs') := handler t h in (r, effs ++ effs')
      | through_or_waiting => through_or_waiting
      end in
    match r with
    | Pending => (Pending, effs)
    | _ =>
        match last h with
        | (Resolves _, effs') => (r, effs ++ effs')
        | (Throws t, effs') => (Throws t, effs ++ effs')
        | (Pending, effs') => (Pending, effs ++ effs')
        end
    end.

Declare Scope task_scope.
Delimit Scope task_scope with task.
Notation "x <- c ;; k" := (and_then c (fun x => k))
  (at level 61, c at next level, right associativity) : task_scope.
Notation "c ;;; k" := (and_then c (fun _ => k))
  (at level 61, right associativity) : task_scope.
Local Open Scope task_scope.

(** A call of a setter, of [console.error] or of [setTimeout]. *)
Definition perform (e : effect) : Task unit := fun _ => (Resolves tt, [e]).

Definition await_getKiroUsage (id : string) : Task UsageInfo :=
  fun h => (usageApi_getKiroUsage h id, [Call_getKiroUsage id]).

Definition await_getKiroCredentialFingerprint (id : string)
  : Task KiroFingerprintInfo :=
  fun h => (getKiroCredentialFingerprint h id,
            [Call_getKiroCredentialFingerprint id]).

Definition await_writeText (text : string) : Task unit :=
  fun h => (navigator_clipboard_writeText h text, [Call_writeText text]).

Definition settles {A} (r : reply A * list effect) : reply A := fst r.
Definition effects {A} (r : reply A * list effect) : list effect := snd r.

Definition is_some {A} (o : option A) : bool :=
  match o with Some _ => true | None => false end.

(** [e instanceof Error ? e.message : String(e)]: the conversion can throw,
    as for a thrown object with an own "toString". *)
Definition error_text (h : Host) (t : thrown) : completion string :=
  match t with
  | ThrownError e => Normal (message e)
  | ThrownValue v => to_string (host_engine h) v
  end.

Definition error_message (t : thrown) : Task string :=
  fun h => (match error_text h t with
            | Normal text => Resolves text
            | Abrupt e => Throws (ThrownError e)
            end, []).

(** The handlers read the state of the render they were created in. *)
Definition handleCheckFingerprint
    (credential : CredentialDisplay) (s : State) : Task unit :=
  if fingerprintExpanded s && is_some (fingerprintInfo s) then
    perform (SetFingerprintExpanded false)
  else
    perform (SetFingerprintExpanded true) ;;;
    perform (SetFingerprintLoading true) ;;;
    try_catch_finally
      (info <- await_getKiroCredentialFingerprint (uuid credential) ;;
       perform (SetFingerprintInfo (Some info)))
      (fun e => perform (Console_error "获取指纹信息失败:" e))
      (perform (SetFingerprintLoading false)).

(** The [try] of this handler has no [finally] clause: nothing runs last. *)
Definition handleCopyMachineId (s : State) : Task unit :=
  match fingerprintInfo s with
  | None => done tt
  | Some info =>
      try_catch_finally
        (await_writeText (machine_id info) ;;;
         perform (SetFingerprintCopied true) ;;;
         perform (SetTimeout [SetFingerprintCopied false] 2000))
        (fun e => perform (Console_error "复制失败:" e))
        (done tt)
  end.

Definition handleCheckUsage
    (credential : CredentialDisplay) (s : State) : Task unit :=
  if usageExpanded s && is_some (usageInfo s) then
    perform (SetUsageExpanded false)
  else
    perform (SetUsageExpanded true) ;;;
    perform (SetUsageLoading true) ;;;
    perform (SetUsageError None) ;;;
    try_catch_finally
      (info <- await_getKiroUsage (uuid credential) ;;
       perform (SetUsageInfo (Some info)))
      (fun e =>
         text <- error_message e ;;
         perform (SetUsageError (Some text)))
      (perform (SetUsageLoading false)).


(** ** What the folding panels show *)

(** [isKiroCredential?: boolean]: absent counts as [false]. *)
Definition prop_is_true (p : option bool) : bool :=
  match p with Some b => b | None => false end.

(** The placeholder handed to [UsageDisplay] while there is nothing yet. *)
Definition placeholder_usage : UsageInfo :=
  {| subscriptionTitle := "";
     usageLimit := S754_zero false;
     currentUsage := S754_zero false;
     balance := S754_zero false;
     isLowBalance := false |}.

Inductive UsagePanel : Type :=
| NoUsagePanel
| UsageErrorBox (text : string)
| UsageDisplay (usage : UsageInfo) (loading : bool).

Definition usagePanel (isKiroCredential : option bool) (s : State) : UsagePanel :=
  if prop_is_true isKiroCredential && usageExpanded s then
    if match usageError s with
       | Some text => negb (string_is_empty text)
       | None => false
       end
    then UsageErrorBox (match usageError s with Some text => text | None => "" end)
    else match usageInfo s with
         | Some info => UsageDisplay info (usageLoading s)
         | None => UsageDisplay placeholder_usage true
         end
  else NoUsagePanel.



(** ** Labels *)

(** Reading [o[key]] on an object literal: an own property, else a member
    inherited from [Object.prototype], else nothing ([undefined]). *)
Inductive property (A : Type) : Type :=
| Own (a : A)
| Inherited (key : string)
| Absent.
Arguments Own {A} a.
Arguments Inherited {A} key.
Arguments Absent {A}.

Definition Object_prototype_keys : list string :=
  ["constructor"; "hasOwnProperty"; "isPrototypeOf"; "propertyIsEnumerable";
   "toLocaleString"; "toString"; "valueOf"; "__proto__";
   "__defineGetter__"; "__defineSetter__";
   "__lookupGetter__"; "__lookupSetter__"].

Fixpoint own_property {A} (o : list (string * A)) (key : string) : option A :=
  match o with
  | [] => None
  | (k, a) :: rest => if String.eqb k key then Some a else own_property rest key
  end.

Definition get_property {A} (o : list (string * A)) (key : string) : property A :=
  match own_property o key with
  | Some a => Own a
  | None =>
      if existsb (String.eqb key) Object_prototype_keys then Inherited key
      else Absent
  end.

(** What [getCredentialTypeLabel] returns: a text, or for a type named like
    a member of [Object.prototype] that member, which is no text. *)
Inductive label : Type :=
| Text (s : string)
| Member (key : string).

Definition credential_type_labels : list (string * string) :=
  [("kiro_oauth", "OAuth");
   ("gemini_oauth", "OAuth");
   ("qwen_oauth", "OAuth");
   ("antigravity_oauth", "OAuth");
   ("openai_key", "API Key");
   ("claude_key", "API Key");
   ("codex_oauth", "OAuth");
   ("claude_oauth", "OAuth");
   ("iflow_oauth", "OAuth");
   ("iflow_cookie", "Cookie")].

Definition getCredentialTypeLabel (type : string) : label :=
  match get_property credential_type_labels type with
  | Own l => if string_is_empty l then Text type else Text l
  | Inherited key => Member key
  | Absent => Text type
  end.

(** [s.includes(pat)] *)
Fixpoint includes (pat s : string) : bool :=
  String.prefix pat s
  || match s with
     | EmptyString => false
     | String _ rest => includes pat rest
     end.

Definition isOAuth (credential : CredentialDisplay) : bool :=
  includes "oauth" (credential_type credential).

(** The refresh button is there for [isOAuth && onRefreshToken]. *)
Definition showsRefreshToken
    (credential : CredentialDisplay) (onRefreshToken : bool) : bool :=
  isOAuth credential && onRefreshToken.

(** ** The last error message *)

(** A JavaScript string is a sequence of UTF-16 code units; [length] and
    [slice] count those.  The box shows [message.slice(0, 150)] and then
    ["..."] when [message.length > 150]; nothing is shown for an absent or
    empty message. *)
Section LastErrorMessage.

Context {code_unit : Type}.
Variable full_stop : code_unit.

Definition slice_from_0 (n : nat) (s : list code_unit) : list code_unit :=
  firstn n s.

Definition last_error_message_box
    (last_error_message : option (list code_unit)) : option (list code_unit) :=
  match last_error_message with
  | None | Some [] => None
  | Some msg =>
      Some (slice_from_0 150 msg
            ++ (if Nat.ltb 150 (length msg)
                then [full_stop; full_stop; full_stop]
                else []))
  end.

End LastErrorMessage.

(** ** Sample cards *)

Definition kiro_credential : CredentialDisplay :=
  {| uuid := "3f2b8c1e-7a9d-4e5f-b0a1-6c2d9e8f7a10";
     credential_type := "kiro_oauth" |}.




(** A host where every call fails, the usage query with an empty message. *)
Definition host_failing : Host :=
  {| host_engine := Samples.v8;
     usageApi_getKiroUsage := fun _ => Throws (ThrownError (Error ""));
     getKiroCredentialFingerprint :=
       fun _ => Throws (ThrownValue (VStr "credential not found"));
     navigator_clipboard_writeText :=
       fun _ => Throws (ThrownError {| name := "NotAllowedError";
                                       message := "Write permission denied." |}) |}.

(** A host whose backend and clipboard never answer. *)
Definition host_silent : Host :=
  {| host_engine := Samples.v8;
     usageApi_getKiroUsage := fun _ => Pending;
     getKiroCredentialFingerprint := fun _ => Pending;
     navigator_clipboard_writeText := fun _ => Pending |}.

(** A host whose usage query rejects with an object that has an own
    "toString". *)
Definition host_odd_rejection : Host :=
  {| host_engine := Samples.v8;
     usageApi_getKiroUsage :=
       fun _ => Throws (ThrownValue (VObj [("toString", VNull)]));
     getKiroCredentialFingerprint := fun _ => Pending;
     navigator_clipboard_writeText := fun _ => Pending |}.

End CredentialCard.

(** * Properties *)

(** ** Values *)

(** ** Values *)

Lemma truthy_js_and (a b : value) :
  truthy (js_and a b) = truthy a && truthy b.
Proof. unfold js_and. destruct (truthy a) eqn:Ha; [reflexivity | exact Ha]. Qed.

Lemma truthy_js_or (a b : value) :
  truthy (js_or a b) = truthy a || truthy b.
Proof. unfold js_or. destruct (truthy a) eqn:Ha; [exact Ha | reflexivity]. Qed.

Lemma truthy_VStr (s : string) : truthy (VStr s) = true <-> s <> "".
Proof.
  destruct s; simpl; split; intro H; try discriminate; try reflexivity.
  now elim H.
Qed.

Lemma truthy_hasTauri (e : Env) : truthy (hasTauri e) = marker_present e.
Proof.
  unfold hasTauri, marker_present.
  destruct (window e) as [win|]; [|reflexivity].
  now rewrite truthy_js_and.
Qed.

Lemma isDevBridgeAvailable_marker (e : Env) :
  marker_present e = true -> isDevBridgeAvailable e = false.
Proof.
  unfold marker_present, isDevBridgeAvailable.
  destruct (window e) as [win|]; [|reflexivity].
  now intros ->.
Qed.

(** ** Operations of the language *)

Lemma property_of_Normal (eng : Engine) (data : value) (key : string) :
  data <> VNull -> data <> VUndefined ->
  property_of eng data key = Normal (field data key).
Proof. destruct data; intros H1 H2; try reflexivity; congruence. Qed.

Lemma property_of_Normal_inv
    (eng : Engine) (data v : value) (key key' : string) :
  property_of eng data key = Normal v ->
  v = field data key /\ property_of eng data key' = Normal (field data key').
Proof. destruct data; cbn; intros H; try discriminate H; now inversion H. Qed.

Lemma new_Error_of_text (eng : Engine) (s : string) :
  new_Error_of eng (VStr s) = Normal (Error s).
Proof. reflexivity. Qed.

(** On plain arguments the object literal serialises as the plain object
    it is. *)
Lemma request_of_plain (cmd : string) (args : value) :
  request_of cmd (Plain args) = Normal (invoke_request cmd args).
Proof.
  unfold request_of, invoke_request, invoke_init, JSON_stringify.
  cbn [stringify_members serialized JSON_document].
  now destruct (JSON_document args).
Qed.

Lemma request_of_shape (cmd : string) (args : unknown) :
  request_of cmd args
  = match serialized args with
    | Abrupt e => Abrupt e
    | Normal o =>
        Normal {| url := BRIDGE_URL;
                  init := post_json
                            (Some (VObj (("cmd", VStr cmd)
                                         :: match o with
                                            | Some j => [("args", j)]
                                            | None => []
                                            end))) |}
    end.
Proof.
  unfold request_of, JSON_stringify.
  cbn [stringify_members]. cbn [serialized JSON_document].
  destruct (serialized args) as [[j|]|e]; reflexivity.
Qed.

(** ** An invocation, as a function of what it is answered *)

Lemma invokeViaHttp_run (w : World) (cmd : string) (args : unknown) :
  invokeViaHttp cmd args w
  = (settle_invocation w cmd args, invocation_events w cmd args).
Proof.
  unfold invocation_events, settle_invocation, invokeViaHttp, request_of,
    read_property, new_Error, response_json, console_log, console_error,
    fetch, throw, bind, try_catch, complete, invoke_started, invoke_failed.
  destruct (JSON_stringify _) as [text|e]; [|reflexivity].
  destruct (network w _) as [r|e]; [|reflexivity].
  unfold settle_response. destruct (ok r); cbn [negb]; [|reflexivity].
  destruct (json r) as [data|e]; [|reflexivity].
  unfold settle_data.
  destruct (property_of (engine w) data "error") as [err|e] eqn:Herr;
    [|reflexivity].
  cbv beta iota zeta.
  destruct (truthy err).
  - rewrite Herr. now destruct (new_Error_of (engine w) err).
  - destruct (property_of_Normal_inv _ _ _ _ "result" Herr) as [_ ->].
    reflexivity.
Qed.

Lemma invokeViaHttp_requests (w : World) (cmd : string) (args : unknown) :
  requests (events (invokeViaHttp cmd args w))
  = match request_of cmd args with
    | Normal req => [req]
    | Abrupt _ => []
    end.
Proof.
  rewrite invokeViaHttp_run. unfold invocation_events, invoke_started.
  cbn [events snd requests].
  destruct (request_of cmd args) as [req|e];
    now destruct (settle_invocation w cmd args).
Qed.

(** The environment plays no part in an invocation. *)
Lemma invokeViaHttp_with_env
    (e : Env) (w : World) (cmd : string) (args : unknown) :
  invokeViaHttp cmd args (with_env e w) = invokeViaHttp cmd args w.
Proof. now rewrite !invokeViaHttp_run. Qed.

(** What an invocation settles to once it got a response. *)
Lemma invokeViaHttp_answered
    (w : World) (cmd : string) (args : unknown) (req : Request) (r : Response) :
  request_of cmd args = Normal req ->
  network w req = Fulfilled r ->
  outcome (invokeViaHttp cmd args w) = settle_response (engine w) r.
Proof.
  intros Hreq Hnet. rewrite invokeViaHttp_run.
  unfold outcome, settle_invocation. cbn [fst]. now rewrite Hreq, Hnet.
Qed.

Lemma settle_response_data (eng : Engine) (r : Response) (data : value) :
  ok r = true ->
  json r = Fulfilled data ->
  data <> VNull -> data <> VUndefined ->
  settle_response eng r
  = if truthy (field data "error")
    then match new_Error_of eng (field data "error") with
         | Normal e | Abrupt e => Rejected e
         end
    else Fulfilled (field data "result").
Proof.
  intros Hok Hjson H1 H2. unfold settle_response, settle_data.
  now rewrite Hok, Hjson, (property_of_Normal eng data "error" H1 H2).
Qed.

(** ** How an invocation fails *)

Import Samples.

(** Runs of the failing paths that send a request and get a 2xx answer. *)
Example invokeViaHttp_on_a_page_of_html :
  invokeViaHttp "save" VNull (dev_backend html_page)
  = (Rejected not_json,
     [invoke_started "save" VNull; invoke_sent "save" VNull;
      invoke_failed "save" not_json]).
Proof. reflexivity. Qed.

Example invokeViaHttp_on_an_error_that_is_no_text :
  invokeViaHttp "save" VNull (dev_backend odd_error)
  = (Rejected (TypeError "Cannot convert object to primitive value"),
     [invoke_started "save" VNull; invoke_sent "save" VNull;
      invoke_failed "save"
        (TypeError "Cannot convert object to primitive value")]).
Proof. reflexivity. Qed.

(** C1, as stated, fails: with nothing listening on the port,
    [invokeViaHttp] does not hand a value back to its caller; the exception
    of [fetch] is thrown on (the promise rejects). *)
Lemma invokeViaHttp_throws_when_backend_down :
  outcome (invokeViaHttp "get_server_status" VUndefined dev_backend_down)
  = Rejected connection_refused
  /\ ~ returns_a_value "get_server_status" VUndefined dev_backend_down.
Proof.
  split; [reflexivity|].
  intros [v Hv]. discriminate Hv.
Qed.

(** C1, amended: [invokeViaHttp] hands no failure back as a value.  Each
    failure is logged with [console.error] and then thrown to the caller:
    a status that is not 2xx as [Error "HTTP <status>: <statusText>"], a
    truthy [error] field as [Error] of its text (the field itself when it
    is a string), and an exception of [JSON.stringify], of the transport,
    of reading the body as JSON, of reading a [null] body or of converting
    the [error] field as that same exception.  A call that returns did
    get a 2xx response whose body parsed to a value with no truthy
    [error], and it returns the [result] of that body without logging an
    error. *)
Theorem invokeViaHttp_rethrows_every_failure
    (w : World) (cmd : string) (args : unknown) :
  (forall e, invoke_failure w cmd args e ->
     outcome (invokeViaHttp cmd args w) = Rejected e
     /\ exists before,
          events (invokeViaHttp cmd args w) = before ++ [invoke_failed cmd e])
  /\ (forall v, outcome (invokeViaHttp cmd args w) = Fulfilled v ->
        (forall e, ~ In (invoke_failed cmd e)
                        (events (invokeViaHttp cmd args w)))
        /\ exists req r data,
             request_of cmd args = Normal req
             /\ network w req = Fulfilled r
             /\ ok r = true
             /\ json r = Fulfilled data
             /\ truthy (field data "error") = false
             /\ v = field data "result").
Proof.
  rewrite invokeViaHttp_run. unfold outcome, events. cbn [fst snd].
  unfold invocation_events. split.
  - intros e H.
    assert (S : settle_invocation w cmd args = Rejected e).
    { unfold settle_invocation.
      destruct H as [e Hreq | req e Hreq Hnet | req r Hreq Hnet Hok
                    | req r e Hreq Hnet Hok Hjson
                    | req r data e Hreq Hnet Hok Hjson Herr
                    | req r data err e Hreq Hnet Hok Hjson Herr Ht Hnew];
        rewrite Hreq; try reflexivity; rewrite Hnet; try reflexivity;
        unfold settle_response; rewrite Hok; try reflexivity;
        rewrite Hjson; try reflexivity;
        unfold settle_data; rewrite Herr; try reflexivity.
      rewrite Ht. now destruct Hnew as [-> | ->]. }
    rewrite S. split; [reflexivity|].
    eexists (_ :: _). cbn [app]. reflexivity.
  - intros v S. rewrite S. split.
    + intros e Hin. unfold invoke_started, invoke_failed in Hin.
      destruct (request_of cmd args) as [req|x]; cbn [In app] in Hin;
        intuition discriminate.
    + revert S. unfold settle_invocation.
      destruct (request_of cmd args) as [req|x]; [|discriminate].
      destruct (network w req) as [r|x] eqn:Hnet; [|discriminate].
      unfold settle_response.
      destruct (ok r) eqn:Hok; [|discriminate].
      destruct (json r) as [data|x] eqn:Hjson; [|discriminate].
      unfold settle_data.
      destruct (property_of (engine w) data "error") as [err|x] eqn:Herr;
        [|discriminate].
      destruct (property_of_Normal_inv _ _ _ _ "result" Herr) as [-> _].
      destruct (truthy (field data "error")) eqn:Ht.
      * now destruct (new_Error_of (engine w) (field data "error")).
      * intros [= <-]. exists req, r, data. repeat split; assumption.
Qed.

Lemma invokeViaHttp_rethrows_every_failure_witness :
  invoke_failure (dev_backend server_error) "get_server_status" VUndefined
    (Error "HTTP 500: Internal Server Error")
  /\ outcome (invokeViaHttp "get_server_status" VUndefined
                (dev_backend server_error))
     = Rejected (Error "HTTP 500: Internal Server Error").
Proof.
  assert (F : invoke_failure (dev_backend server_error)
                "get_server_status" VUndefined
                (Error "HTTP 500: Internal Server Error"))
    by exact (status_not_2xx (dev_backend server_error) "get_server_status"
                VUndefined (invoke_request "get_server_status" VUndefined)
                server_error eq_refl eq_refl eq_refl).
  split; [exact F|].
  exact (proj1 (proj1 (invokeViaHttp_rethrows_every_failure
                         (dev_backend server_error)
                         "get_server_status" VUndefined)
                  (Error "HTTP 500: Internal Server Error") F)).
Defined.

(** C4, as stated, fails: a 204 is a 2xx response without any [error]
    field, and the invocation does not succeed: reading the empty body as
    JSON raises, and the exception is thrown on. *)
Lemma invokeViaHttp_fails_on_no_content :
  ok no_content = true
  /\ outcome (invokeViaHttp "save" VNull (dev_backend no_content))
     = Rejected nothing_to_parse
  /\ ~ returns_a_value "save" VNull (dev_backend no_content).
Proof.
  split; [reflexivity|]. split; [reflexivity|].
  intros [v Hv]. discriminate Hv.
Qed.

(** C4, amended: on a 2xx response whose body parses as JSON to a value
    other than [null], the invocation fails with exactly the [error] string
    as its message when the body has a non-empty string [error] (the
    failure is a thrown [Error]), and it succeeds with the body's [result]
    ([undefined] when there is none) when the body has no [error] or a
    falsy one. *)
Theorem invokeViaHttp_error_field_or_result
    (w : World) (cmd : string) (args : unknown) (req : Request)
    (r : Response) (data : value) :
  request_of cmd args = Normal req ->
  network w req = Fulfilled r ->
  ok r = true ->
  json r = Fulfilled data ->
  data <> VNull ->
  data <> VUndefined ->
  (forall s, field data "error" = VStr s -> s <> "" ->
             outcome (invokeViaHttp cmd args w) = Rejected (Error s)
             /\ message (Error s) = s)
  /\ (truthy (field data "error") = false ->
      outcome (invokeViaHttp cmd args w) = Fulfilled (field data "result")).
Proof.
  intros Hreq Hnet Hok Hjson H1 H2.
  rewrite (invokeViaHttp_answered w cmd args req r Hreq Hnet).
  rewrite (settle_response_data (engine w) r data Hok Hjson H1 H2).
  split.
  - intros s Herr Hs. rewrite Herr.
    rewrite (proj2 (truthy_VStr s) Hs). now rewrite new_Error_of_text.
  - now intros ->.
Qed.

Lemma invokeViaHttp_error_field_or_result_witness :
  outcome (invokeViaHttp "nope" VNull (dev_backend unknown_command))
  = Rejected (Error "unknown command")
  /\ outcome (invokeViaHttp "get_server_status" VUndefined
                (dev_backend running))
     = Fulfilled (VObj [("running", VBool true)]).
Proof.
  split.
  - refine (proj1 (proj1 (invokeViaHttp_error_field_or_result
                     (dev_backend unknown_command) "nope" VNull
                     (invoke_request "nope" VNull) unknown_command
                     (VObj [("error", VStr "unknown command")])
                     eq_refl eq_refl eq_refl eq_refl _ _)
                   "unknown command" eq_refl _)); discriminate.
  - refine (proj2 (invokeViaHttp_error_field_or_result
                     (dev_backend running) "get_server_status" VUndefined
                     (invoke_request "get_server_status" VUndefined) running
                     (VObj [("result", VObj [("running", VBool true)])])
                     eq_refl eq_refl eq_refl eq_refl _ _)
                  eq_refl); discriminate.
Defined.



(** C10, as stated, fails: the JSON body [null] of a 200 has neither an
    [error] nor a [result], and the invocation does not resolve: reading
    [error] from [null] raises a [TypeError], which is thrown on. *)
Lemma invokeViaHttp_throws_on_null_body :
  ok null_body = true
  /\ json null_body = Fulfilled VNull
  /\ field VNull "error" = VUndefined
  /\ field VNull "result" = VUndefined
  /\ outcome (invokeViaHttp "save" VNull (dev_backend null_body))
     = Rejected (TypeError "Cannot read properties of null (reading 'error')")
  /\ ~ returns_a_value "save" VNull (dev_backend null_body).
Proof.
  repeat (split; [reflexivity|]).
  intros [v Hv]. discriminate Hv.
Qed.

(** C10, amended: on a 2xx response whose body parses as JSON to a value
    other than [null] that has no [result], and no [error] or the empty
    string as [error], the invocation succeeds with [undefined]. *)
Theorem invokeViaHttp_empty_body_undefined
    (w : World) (cmd : string) (args : unknown) (req : Request)
    (r : Response) (data : value) :
  request_of cmd args = Normal req ->
  network w req = Fulfilled r ->
  ok r = true ->
  json r = Fulfilled data ->
  data <> VNull ->
  data <> VUndefined ->
  field data "result" = VUndefined ->
  field data "error" = VUndefined \/ field data "error" = VStr "" ->
  outcome (invokeViaHttp cmd args w) = Fulfilled VUndefined.
Proof.
  intros Hreq Hnet Hok Hjson H1 H2 Hres Herr.
  rewrite (invokeViaHttp_answered w cmd args req r Hreq Hnet).
  rewrite (settle_response_data (engine w) r data Hok Hjson H1 H2).
  rewrite Hres. now destruct Herr as [-> | ->].
Qed.

Lemma invokeViaHttp_empty_body_undefined_witness :
  outcome (invokeViaHttp "save" VNull (dev_backend empty_object))
  = Fulfilled VUndefined
  /\ outcome (invokeViaHttp "save" VNull (dev_backend empty_error))
     = Fulfilled VUndefined.
Proof.
  split.
  - refine (invokeViaHttp_empty_body_undefined
              (dev_backend empty_object) "save" VNull
              (invoke_request "save" VNull) empty_object (VObj [])
              eq_refl eq_refl eq_refl eq_refl _ _ eq_refl (or_introl eq_refl));
      discriminate.
  - refine (invokeViaHttp_empty_body_undefined
              (dev_backend empty_error) "save" VNull
              (invoke_request "save" VNull) empty_error
              (VObj [("error", VStr "")])
              eq_refl eq_refl eq_refl eq_refl _ _ eq_refl (or_intror eq_refl));
      discriminate.
Defined.

(** ** The request of an invocation *)

(** C8, as stated, fails: called on the development page with a BigInt as
    argument, the invocation sends no request at all: [JSON.stringify]
    throws before [fetch] is reached. *)
Lemma invokeViaHttp_sends_nothing_for_a_bigint :
  mode (getBridgeStatus (env (dev_backend running))) = Network
  /\ invokeViaHttp "save" a_bigint (dev_backend running)
     = (Rejected (TypeError "Do not know how to serialize a BigInt"),
        [invoke_started "save" a_bigint;
         invoke_failed "save"
           (TypeError "Do not know how to serialize a BigInt")])
  /\ ~ sends_one_request "save" a_bigint (dev_backend running).
Proof.
  split; [reflexivity|]. split; [reflexivity|].
  intros [req Hreq]. discriminate Hreq.
Qed.

(** C8, amended: an invocation whose arguments [JSON.stringify] accepts
    sends exactly one request: a POST to http://127.0.0.1:3030/invoke with
    the header Content-Type: application/json, whose body is the JSON
    object with [cmd], and with [args] when the arguments serialise to
    something.  When [JSON.stringify] refuses the arguments, no request is
    sent and its exception is thrown on. *)
Theorem invokeViaHttp_single_post (w : World) (cmd : string) (args : unknown) :
  requests (events (invokeViaHttp cmd args w))
  = match serialized args with
    | Abrupt _ => []
    | Normal o =>
        [ {| url := "http://127.0.0.1:3030/invoke";
             init :=
               {| method := "POST";
                  headers := [("Content-Type", "application/json")];
                  body :=
                    Some (VObj (("cmd", VStr cmd)
                                :: match o with
                                   | Some j => [("args", j)]
                                   | None => []
                                   end)) |} |} ]
    end
  /\ (forall e, serialized args = Abrupt e ->
                outcome (invokeViaHttp cmd args w) = Rejected e).
Proof.
  split.
  - rewrite invokeViaHttp_requests, request_of_shape.
    now destruct (serialized args).
  - intros e He. rewrite invokeViaHttp_run.
    unfold outcome, settle_invocation. cbn [fst].
    now rewrite request_of_shape, He.
Qed.

(** C7, as stated, fails: a production page on a public host has mode
    Unavailable, and yet the invocation sends its request and succeeds with
    what the backend answers. *)
Lemma invokeViaHttp_sends_when_unavailable :
  mode (getBridgeStatus (env production_backend_running)) = Unavailable
  /\ invokeViaHttp "get_server_status" VUndefined production_backend_running
     = (Fulfilled (VObj [("running", VBool true)]),
        [invoke_started "get_server_status" VUndefined;
         invoke_sent "get_server_status" VUndefined])
  /\ ~ unavailable_fails_at_once "get_server_status" VUndefined
        production_backend_running.
Proof.
  split; [reflexivity|]. split; [reflexivity|].
  intros H. destruct (H eq_refl) as [Hout _]. discriminate Hout.
Qed.

(** C7, amended: [invokeViaHttp] does not look at the mode.  Under mode
    Unavailable it settles and acts exactly as in any other environment
    facing the same network: it sends its one request whenever
    [JSON.stringify] accepts the arguments, and it has no failure of its
    own for that mode. *)
Theorem invokeViaHttp_ignores_mode (w : World) (cmd : string) (args : unknown) :
  mode (getBridgeStatus (env w)) = Unavailable ->
  (forall e : Env,
     invokeViaHttp cmd args (with_env e w) = invokeViaHttp cmd args w)
  /\ requests (events (invokeViaHttp cmd args w))
     = match request_of cmd args with
       | Normal req => [req]
       | Abrupt _ => []
       end.
Proof.
  intros _. split.
  - intros e. apply invokeViaHttp_with_env.
  - apply invokeViaHttp_requests.
Qed.

Lemma invokeViaHttp_ignores_mode_witness :
  mode (getBridgeStatus (env no_window_backend_down)) = Unavailable
  /\ requests (events (invokeViaHttp "get_server_status" VUndefined
                         no_window_backend_down))
     = [invoke_request "get_server_status" VUndefined].
Proof.
  split; [reflexivity|].
  exact (proj2 (invokeViaHttp_ignores_mode no_window_backend_down
                  "get_server_status" VUndefined eq_refl)).
Defined.

(** ** The liveness probe *)

(** ** The liveness probe *)

Lemma healthCheck_run (w : World) :
  healthCheck w
  = (Fulfilled (match network w healthCheck_request with
                | Fulfilled r => ok r
                | Rejected _ => false
                end),
     [Fetch healthCheck_request]).
Proof.
  unfold healthCheck, try_catch, bind, complete, fetch, ret.
  cbn [JSON_stringify stringify_members serialized JSON_document].
  change {| url := BRIDGE_URL;
            init := post_json (Some (VObj [("cmd", VStr "get_server_status")])) |}
    with healthCheck_request.
  now destruct (network w healthCheck_request).
Qed.

(** C2, as stated, fails: the backend answers the probe with status 500 and
    the probe says [false]. *)
Lemma healthCheck_false_on_server_error :
  network (dev_backend server_error) healthCheck_request
  = Fulfilled server_error
  /\ outcome (healthCheck (dev_backend server_error)) = Fulfilled false
  /\ ~ any_response_is_reachable (dev_backend server_error).
Proof.
  split; [reflexivity|]. split; [reflexivity|].
  intros H. specialize (H server_error eq_refl). discriminate H.
Qed.

(** C2, amended: the probe returns the [ok] flag of the response it
    receives: [true] exactly for a status from 200 to 299, whatever the body
    (also a body with an [error] field); a response with another status and
    the absence of a response both give [false]. *)
Theorem healthCheck_reports_ok (w : World) :
  outcome (healthCheck w)
  = Fulfilled (match network w healthCheck_request with
               | Fulfilled r => (200 <=? status r)%N && (status r <=? 299)%N
               | Rejected _ => false
               end).
Proof. now rewrite healthCheck_run. Qed.

(** C6: the probe never throws: it always returns a boolean, and it
    returns [false] whenever the transport raises. *)
Theorem healthCheck_never_throws (w : World) :
  (exists b, outcome (healthCheck w) = Fulfilled b)
  /\ (forall e, network w healthCheck_request = Rejected e ->
                outcome (healthCheck w) = Fulfilled false).
Proof.
  rewrite healthCheck_run. split.
  - eexists. reflexivity.
  - now intros e ->.
Qed.

Lemma healthCheck_never_throws_witness :
  network dev_backend_down healthCheck_request = Rejected connection_refused
  /\ outcome (healthCheck dev_backend_down) = Fulfilled false.
Proof.
  split; [reflexivity|].
  exact (proj2 (healthCheck_never_throws dev_backend_down)
               connection_refused eq_refl).
Defined.

(** ** The mode and the status record *)

(** ** The mode and the status record *)

Lemma local_development_host_iff (h : string) :
  local_development_host h = true <-> h = "localhost" \/ h = "127.0.0.1".
Proof.
  unfold local_development_host. rewrite orb_true_iff, !String.eqb_eq.
  reflexivity.
Qed.

Lemma isDevBridgeAvailable_unfold (e : Env) :
  isDevBridgeAvailable e
  = match window e with
    | None => false
    | Some win =>
        negb (truthy (TAURI win))
        && (DEV e || local_development_host (hostname win))
    end.
Proof.
  unfold isDevBridgeAvailable, local_development_host.
  destruct (window e) as [win|]; [|reflexivity].
  now rewrite orb_assoc.
Qed.

(** C3, as stated, fails: a development build opened under another host
    name has no marker and no local host name, and its mode is Network. *)
Lemma mode_of_dev_build_on_other_host :
  marker_present browser_dev_lan = false
  /\ local_development_host "192.168.1.20" = false
  /\ mode (getBridgeStatus browser_dev_lan) = Network
  /\ policy_by_marker_and_host browser_dev_lan = Unavailable
  /\ mode (getBridgeStatus browser_dev_lan)
     <> policy_by_marker_and_host browser_dev_lan.
Proof. repeat split; try reflexivity. discriminate. Qed.

(** C3, amended: with the marker present the mode is Native, whatever the
    host name; otherwise, on a page that is a development build
    ([import.meta.env.DEV]) or whose host name is localhost or 127.0.0.1,
    the mode is Network; otherwise it is Unavailable. *)
Theorem getBridgeStatus_mode (e : Env) :
  mode (getBridgeStatus e) = policy_of_the_code e.
Proof.
  unfold getBridgeStatus, policy_of_the_code. cbn [mode].
  rewrite truthy_hasTauri, isDevBridgeAvailable_unfold.
  unfold marker_present.
  destruct (window e) as [win|]; [|reflexivity].
  destruct (truthy (TAURI win)); [reflexivity|].
  now destruct (DEV e || local_development_host (hostname win)).
Qed.

(** What holds of the stated policy: the marker wins over the host name
    and over the build, and a local host name without marker is Network. *)
Lemma mode_native_of_marker (e : Env) :
  marker_present e = true -> mode (getBridgeStatus e) = Native.
Proof.
  intros H. unfold getBridgeStatus. cbn [mode].
  now rewrite truthy_hasTauri, H.
Qed.

Lemma mode_network_of_local_host (e : Env) (win : Window) :
  window e = Some win ->
  truthy (TAURI win) = false ->
  hostname win = "localhost" \/ hostname win = "127.0.0.1" ->
  mode (getBridgeStatus e) = Network.
Proof.
  intros Hw Hm Hh. apply local_development_host_iff in Hh.
  unfold getBridgeStatus. cbn [mode].
  rewrite truthy_hasTauri, isDevBridgeAvailable_unfold.
  unfold marker_present. rewrite Hw, Hm, Hh.
  now rewrite orb_true_r.
Qed.

(** Outside development builds the code follows the stated policy. *)
Lemma policy_of_the_code_production (e : Env) :
  DEV e = false -> policy_of_the_code e = policy_by_marker_and_host e.
Proof.
  intros H. unfold policy_of_the_code, policy_by_marker_and_host, marker_present.
  rewrite H. destruct (window e) as [win|]; [|reflexivity].
  now destruct (truthy (TAURI win)).
Qed.

(** C9: in every status record, [connected] implies [available]; the mode
    is "tauri" exactly when the marker is present; and the mode is "mock"
    exactly when [available] is [false]. *)
Theorem getBridgeStatus_invariants (e : Env) :
  let s := getBridgeStatus e in
  (truthy (connected s) = true -> truthy (available s) = true)
  /\ (mode s = tauri <-> marker_present e = true)
  /\ (mode s = mock <-> available s = VBool false)
  /\ (mode s = mock <-> truthy (available s) = false).
Proof.
  cbn zeta. unfold getBridgeStatus. cbn [connected available mode].
  rewrite truthy_js_or, truthy_hasTauri.
  unfold js_or. rewrite truthy_hasTauri.
  destruct (marker_present e) eqn:Hm.
  - repeat split; try discriminate; try reflexivity.
    + intros H. rewrite <- truthy_hasTauri, H in Hm. discriminate Hm.
  - cbn [orb truthy].
    destruct (isDevBridgeAvailable e); repeat split; try discriminate;
      try reflexivity; intros H; try discriminate H.
Qed.

Lemma getBridgeStatus_invariants_witness :
  truthy (connected (getBridgeStatus native_shell)) = true
  /\ truthy (available (getBridgeStatus native_shell)) = true
  /\ mode (getBridgeStatus native_shell) = tauri
  /\ available (getBridgeStatus browser_production) = VBool false.
Proof.
  split; [reflexivity|]. split; [|split].
  - exact (proj1 (getBridgeStatus_invariants native_shell) eq_refl).
  - exact (proj2 (proj1 (proj2 (getBridgeStatus_invariants native_shell)))
                 eq_refl).
  - exact (proj1 (proj1 (proj2 (proj2 (getBridgeStatus_invariants
                                         browser_production))))
                 eq_refl).
Defined.

(** * Further properties of the bridge *)

(** X1: an invocation logs its entry line, sends its request unless
    [JSON.stringify] refuses the arguments, and logs an error line exactly
    when it throws; the exception logged is the one thrown. *)
Theorem invokeViaHttp_logs_what_it_throws
    (w : World) (cmd : string) (args : unknown) :
  events (invokeViaHttp cmd args w)
  = invoke_started cmd args
    :: match request_of cmd args with
       | Normal req => [Fetch req]
       | Abrupt _ => []
       end
    ++ match outcome (invokeViaHttp cmd args w) with
       | Rejected e => [invoke_failed cmd e]
       | Fulfilled _ => []
       end.
Proof. now rewrite invokeViaHttp_run. Qed.

(** X2: the probe logs nothing and sends one request, the very request an
    invocation of "get_server_status" without arguments sends. *)
Theorem healthCheck_sends_the_status_request (w : World) :
  events (healthCheck w)
  = [Fetch (invoke_request "get_server_status" VUndefined)]
  /\ requests (events (healthCheck w))
     = requests (events (invokeViaHttp "get_server_status" VUndefined w)).
Proof.
  rewrite healthCheck_run, invokeViaHttp_requests, request_of_plain.
  split; reflexivity.
Qed.

(** X3: facing the same network, whenever the invocation of
    "get_server_status" succeeds, the probe answers [true]. *)
Theorem healthCheck_true_when_status_invocation_succeeds
    (w : World) (v : value) :
  outcome (invokeViaHttp "get_server_status" VUndefined w) = Fulfilled v ->
  outcome (healthCheck w) = Fulfilled true.
Proof.
  rewrite healthCheck_run.
  change healthCheck_request
    with (invoke_request "get_server_status" VUndefined).
  destruct (network w (invoke_request "get_server_status" VUndefined))
    as [r|e] eqn:H.
  - rewrite (invokeViaHttp_answered w _ _ _ r (request_of_plain _ _) H).
    unfold settle_response.
    destruct (ok r); [reflexivity|discriminate].
  - rewrite invokeViaHttp_run. unfold outcome, settle_invocation. cbn [fst].
    rewrite request_of_plain, H. discriminate.
Qed.

Lemma healthCheck_true_when_status_invocation_succeeds_witness :
  outcome (invokeViaHttp "get_server_status" VUndefined (dev_backend running))
  = Fulfilled (VObj [("running", VBool true)])
  /\ outcome (healthCheck (dev_backend running)) = Fulfilled true.
Proof.
  split; [reflexivity|].
  exact (healthCheck_true_when_status_invocation_succeeds
           (dev_backend running) (VObj [("running", VBool true)]) eq_refl).
Defined.

(** X4: the mode is "http" exactly when [isDevBridgeAvailable] holds. *)
Theorem mode_http_iff_isDevBridgeAvailable (e : Env) :
  mode (getBridgeStatus e) = http <-> isDevBridgeAvailable e = true.
Proof.
  unfold getBridgeStatus. cbn [mode]. rewrite truthy_hasTauri.
  destruct (marker_present e) eqn:Hm.
  - rewrite (isDevBridgeAvailable_marker e Hm). split; discriminate.
  - destruct (isDevBridgeAvailable e); split; trivial; discriminate.
Qed.

(** X5: [connected] is truthy exactly in mode "tauri"; in mode "http" the
    status never reports a connection, whatever the backend does. *)
Theorem connected_iff_mode_tauri (e : Env) :
  (truthy (connected (getBridgeStatus e)) = true
   <-> mode (getBridgeStatus e) = tauri)
  /\ (mode (getBridgeStatus e) = http ->
      truthy (connected (getBridgeStatus e)) = false
      /\ available (getBridgeStatus e) = VBool true).
Proof.
  unfold getBridgeStatus. cbn [mode connected available].
  unfold js_or. rewrite truthy_hasTauri.
  destruct (marker_present e) eqn:Hm.
  - repeat split; trivial; discriminate.
  - destruct (isDevBridgeAvailable e); repeat split; trivial; discriminate.
Qed.

Lemma connected_iff_mode_tauri_witness :
  mode (getBridgeStatus browser_dev) = http
  /\ truthy (connected (getBridgeStatus browser_dev)) = false
  /\ available (getBridgeStatus browser_dev) = VBool true.
Proof.
  split; [reflexivity|].
  exact (proj2 (connected_iff_mode_tauri browser_dev) eq_refl).
Defined.

(** * Properties of the credential card *)

Import CredentialCard.

(** ** The handlers, effect by effect *)

Lemma handleCheckUsage_run (c : CredentialDisplay) (s : State) (h : Host) :
  handleCheckUsage c s h
  = if usageExpanded s && is_some (usageInfo s)
    then (Resolves tt, [SetUsageExpanded false])
    else
      match usageApi_getKiroUsage h (uuid c) with
      | Resolves info =>
          (Resolves tt,
           [SetUsageExpanded true; SetUsageLoading true; SetUsageError None;
            Call_getKiroUsage (uuid c);
            SetUsageInfo (Some info); SetUsageLoading false])
      | Throws t =>
          match error_text h t with
          | Normal text =>
              (Resolves tt,
               [SetUsageExpanded true; SetUsageLoading true;
                SetUsageError None; Call_getKiroUsage (uuid c);
                SetUsageError (Some text); SetUsageLoading false])
          | Abrupt e =>
              (Throws (ThrownError e),
               [SetUsageExpanded true; SetUsageLoading true;
                SetUsageError None; Call_getKiroUsage (uuid c);
                SetUsageLoading false])
          end
      | Pending =>
          (Pending,
           [SetUsageExpanded true; SetUsageLoading true; SetUsageError None;
            Call_getKiroUsage (uuid c)])
      end.
Proof.
  unfold handleCheckUsage.
  destruct (usageExpanded s && is_some (usageInfo s)); [reflexivity|].
  unfold and_then, try_catch_finally, perform, await_getKiroUsage,
    error_message.
  destruct (usageApi_getKiroUsage h (uuid c)) as [info|t|]; try reflexivity.
  now destruct (error_text h t).
Qed.

Lemma handleCheckFingerprint_run
    (c : CredentialDisplay) (s : State) (h : Host) :
  handleCheckFingerprint c s h
  = if fingerprintExpanded s && is_some (fingerprintInfo s)
    then (Resolves tt, [SetFingerprintExpanded false])
    else
      match getKiroCredentialFingerprint h (uuid c) with
      | Resolves info =>
          (Resolves tt,
           [SetFingerprintExpanded true; SetFingerprintLoading true;
            Call_getKiroCredentialFingerprint (uuid c);
            SetFingerprintInfo (Some info); SetFingerprintLoading false])
      | Throws t =>
          (Resolves tt,
           [SetFingerprintExpanded true; SetFingerprintLoading true;
            Call_getKiroCredentialFingerprint (uuid c);
            Console_error "获取指纹信息失败:" t; SetFingerprintLoading false])
      | Pending =>
          (Pending,
           [SetFingerprintExpanded true; SetFingerprintLoading true;
            Call_getKiroCredentialFingerprint (uuid c)])
      end.
Proof.
  unfold handleCheckFingerprint.
  destruct (fingerprintExpanded s && is_some (fingerprintInfo s));
    [reflexivity|].
  unfold and_then, try_catch_finally, perform,
    await_getKiroCredentialFingerprint.
  now destruct (getKiroCredentialFingerprint h (uuid c)).
Qed.

Lemma handleCopyMachineId_run (s : State) (h : Host) :
  handleCopyMachineId s h
  = match fingerprintInfo s with
    | None => (Resolves tt, [])
    | Some info =>
        match navigator_clipboard_writeText h (machine_id info) with
        | Resolves _ =>
            (Resolves tt,
             [Call_writeText (machine_id info); SetFingerprintCopied true;
              SetTimeout [SetFingerprintCopied false] 2000])
        | Throws t =>
            (Resolves tt,
             [Call_writeText (machine_id info); Console_error "复制失败:" t])
        | Pending => (Pending, [Call_writeText (machine_id info)])
        end
    end.
Proof.
  unfold handleCopyMachineId.
  destruct (fingerprintInfo s) as [info|]; [|reflexivity].
  unfold and_then, try_catch_finally, perform, await_writeText, done.
  now destruct (navigator_clipboard_writeText h (machine_id info)).
Qed.

(** ** The usage panel *)

(** X6: once the usage query has settled, [handleCheckUsage] leaves
    [usageLoading] false, whatever state its updates meet, and it resolves,
    but for one case: the query rejected and converting what it rejected
    with to a message throws; then the handler rejects with that exception.
    As long as the query does not settle, the handler does not either, and
    its last write to [usageLoading] is [true].  When it only folds the
    panel, it resolves and leaves [usageLoading] as it is. *)
Theorem handleCheckUsage_end_of_loading
    (c : CredentialDisplay) (s s' : State) (h : Host) :
  let run := handleCheckUsage c s h in
  let loading := usageLoading (apply_effects s' (effects run)) in
  if usageExpanded s && is_some (usageInfo s)
  then settles run = Resolves tt /\ loading = usageLoading s'
  else match usageApi_getKiroUsage h (uuid c) with
       | Resolves _ => settles run = Resolves tt /\ loading = false
       | Throws t =>
           settles run = match error_text h t with
                         | Normal _ => Resolves tt
                         | Abrupt e => Throws (ThrownError e)
                         end
           /\ loading = false
       | Pending => settles run = Pending /\ loading = true
       end.
Proof.
  cbv zeta. rewrite handleCheckUsage_run.
  destruct (usageExpanded s && is_some (usageInfo s)); [now split|].
  destruct (usageApi_getKiroUsage h (uuid c)) as [info|t|]; try now split.
  now destruct (error_text h t).
Qed.

Lemma handleCheckUsage_end_of_loading_witness :
  settles (handleCheckUsage kiro_credential initial host_silent) = Pending
  /\ usageLoading
       (apply_effects initial
          (effects (handleCheckUsage kiro_credential initial host_silent)))
     = true.
Proof.
  exact (handleCheckUsage_end_of_loading kiro_credential initial initial
           host_silent).
Defined.

(** A rejection that [String(e)] cannot convert makes the handler reject,
    after loading has ended. *)
Example handleCheckUsage_on_an_odd_rejection :
  handleCheckUsage kiro_credential initial host_odd_rejection
  = (Throws (ThrownError
               (TypeError "Cannot convert object to primitive value")),
     [SetUsageExpanded true; SetUsageLoading true; SetUsageError None;
      Call_getKiroUsage (uuid kiro_credential); SetUsageLoading false]).
Proof. reflexivity. Qed.





(** X9: while the query is under way (the updates made before the handler
    waits), the panel is open, shows no error of an earlier attempt, and
    displays as loading, whatever state those updates meet. *)
Theorem handleCheckUsage_while_waiting
    (c : CredentialDisplay) (s s' : State) (h : Host) :
  usageExpanded s && is_some (usageInfo s) = false ->
  let waiting :=
    apply_effects s' (before_await (effects (handleCheckUsage c s h))) in
  usageExpanded waiting = true
  /\ usageLoading waiting = true
  /\ usageError waiting = None
  /\ usageInfo waiting = usageInfo s'
  /\ usagePanel (Some true) waiting
     = UsageDisplay (match usageInfo s' with
                     | Some info => info
                     | None => placeholder_usage
                     end) true.
Proof.
  intros Hpath waiting. unfold waiting.
  rewrite handleCheckUsage_run, Hpath.
  assert (E : before_await
                (effects
                   match usageApi_getKiroUsage h (uuid c) with
                   | Resolves info =>
                       (Resolves tt,
                        [SetUsageExpanded true; SetUsageLoading true;
                         SetUsageError None; Call_getKiroUsage (uuid c);
                         SetUsageInfo (Some info); SetUsageLoading false])
                   | Throws t =>
                       match error_text h t with
                       | Normal text =>
                           (Resolves tt,
                            [SetUsageExpanded true; SetUsageLoading true;
                             SetUsageError None; Call_getKiroUsage (uuid c);
                             SetUsageError (Some text); SetUsageLoading false])
                       | Abrupt e =>
                           (Throws (ThrownError e),
                            [SetUsageExpanded true; SetUsageLoading true;
                             SetUsageError None; Call_getKiroUsage (uuid c);
                             SetUsageLoading false])
                       end
                   | Pending =>
                       (Pending,
                        [SetUsageExpanded true; SetUsageLoading true;
                         SetUsageError None; Call_getKiroUsage (uuid c)])
                   end)
              = [SetUsageExpanded true; SetUsageLoading true;
                 SetUsageError None]).
  { destruct (usageApi_getKiroUsage h (uuid c)) as [i|t|]; try reflexivity.
    now destruct (error_text h t). }
  rewrite E. cbn.
  repeat split. unfold usagePanel. cbn.
  now destruct (usageInfo s').
Qed.

Lemma handleCheckUsage_while_waiting_witness :
  usagePanel (Some true)
    (apply_effects initial
       (before_await (effects (handleCheckUsage kiro_credential initial
                                 host_failing))))
  = UsageDisplay placeholder_usage true.
Proof.
  pose proof (handleCheckUsage_while_waiting kiro_credential initial initial
                host_failing eq_refl) as H.
  cbv zeta in H. destruct H as (_ & _ & _ & _ & H5).
  exact H5.
Defined.

(** ** The fingerprint panel *)

(** X10: once the fingerprint query has settled, [handleCheckFingerprint]
    resolves and leaves [fingerprintLoading] false, whatever state its
    updates meet.  As long as the query does not settle, the handler does
    not either, and its last write to [fingerprintLoading] is [true].
    When it only folds the panel, it resolves and leaves
    [fingerprintLoading] as it is.  It never rejects. *)
Theorem handleCheckFingerprint_end_of_loading
    (c : CredentialDisplay) (s s' : State) (h : Host) :
  let run := handleCheckFingerprint c s h in
  let loading := fingerprintLoading (apply_effects s' (effects run)) in
  (forall t, settles run <> Throws t)
  /\ if fingerprintExpanded s && is_some (fingerprintInfo s)
     then settles run = Resolves tt /\ loading = fingerprintLoading s'
     else match getKiroCredentialFingerprint h (uuid c) with
          | Resolves _ | Throws _ => settles run = Resolves tt /\ loading = false
          | Pending => settles run = Pending /\ loading = true
          end.
Proof.
  cbv zeta. rewrite handleCheckFingerprint_run.
  destruct (fingerprintExpanded s && is_some (fingerprintInfo s));
    [now split|].
  now destruct (getKiroCredentialFingerprint h (uuid c)).
Qed.

Lemma handleCheckFingerprint_end_of_loading_witness :
  settles (handleCheckFingerprint kiro_credential initial host_silent)
  = Pending
  /\ fingerprintLoading
       (apply_effects initial
          (effects (handleCheckFingerprint kiro_credential initial
                      host_silent)))
     = true.
Proof.
  exact (proj2 (handleCheckFingerprint_end_of_loading kiro_credential
                  initial initial host_silent)).
Defined.



(** X12: [handleCopyMachineId] never rejects.  Without a fingerprint it
    does nothing at all; otherwise it asks the clipboard once to write the
    machine id.  When the clipboard refuses, the state stays as it was;
    when it accepts, the copied mark is set and one timer of 2000 ms is
    started, which takes the mark away again; as long as the clipboard does
    not answer, the handler waits and the state stays as it was. *)
Theorem handleCopyMachineId_mark_and_timer (s : State) (h : Host) :
  let effs := effects (handleCopyMachineId s h) in
  let s1 := apply_effects s effs in
  (forall t, settles (handleCopyMachineId s h) <> Throws t)
  /\ match fingerprintInfo s with
     | None => settles (handleCopyMachineId s h) = Resolves tt /\ effs = []
     | Some info =>
         calls effs = [Call_writeText (machine_id info)]
         /\ match navigator_clipboard_writeText h (machine_id info) with
            | Resolves _ =>
                settles (handleCopyMachineId s h) = Resolves tt
                /\ s1 = apply_effect s (SetFingerprintCopied true)
                /\ exists callback,
                     timers effs = [(callback, 2000%N)]
                     /\ timer_fires s1 (callback, 2000%N)
                        = apply_effect s (SetFingerprintCopied false)
            | Throws t =>
                settles (handleCopyMachineId s h) = Resolves tt
                /\ s1 = s /\ timers effs = []
            | Pending =>
                settles (handleCopyMachineId s h) = Pending
                /\ s1 = s /\ timers effs = []
            end
     end.
Proof.
  cbv zeta. rewrite handleCopyMachineId_run.
  destruct (fingerprintInfo s) as [info|]; [|now repeat split].
  destruct (navigator_clipboard_writeText h (machine_id info)) as [u|t|].
  - split; [discriminate|]. split; [reflexivity|].
    split; [reflexivity|]. split; [reflexivity|].
    eexists. split; reflexivity.
  - split; [discriminate|]. now repeat split.
  - split; [discriminate|]. now repeat split.
Qed.

(** ** Labels *)

(** ** Labels *)

Lemma not_prototype_key (type : string) :
  existsb (String.eqb type) Object_prototype_keys = false ->
  get_property credential_type_labels type
  = match own_property credential_type_labels type with
    | Some l => Own l
    | None => Absent
    end.
Proof.
  intros H. unfold get_property.
  destruct (own_property credential_type_labels type); [reflexivity|].
  now rewrite H.
Qed.

(** X13: a credential type named like a member of [Object.prototype]
    ("constructor", "toString", ...) gets that member, which is no text.
    Every other type gets a text: its entry in the table, or else the type
    itself; that text is empty only for the empty type, and labelling it
    again changes nothing. *)
Theorem getCredentialTypeLabel_text (type : string) :
  if existsb (String.eqb type) Object_prototype_keys
  then getCredentialTypeLabel type = Member type
  else exists l,
         getCredentialTypeLabel type = Text l
         /\ (own_property credential_type_labels type = Some l
             \/ own_property credential_type_labels type = None /\ l = type)
         /\ (string_is_empty l = true -> type = "")
         /\ getCredentialTypeLabel l = Text l.
Proof.
  destruct (existsb (String.eqb type) Object_prototype_keys) eqn:Hp.
  - unfold getCredentialTypeLabel, get_property.
    destruct (own_property credential_type_labels type) as [l|] eqn:Hown.
    + exfalso. revert Hown Hp.
      cbn [own_property credential_type_labels].
      repeat match goal with
             | |- context [String.eqb ?k type] =>
                 destruct (String.eqb_spec k type) as [<-|_];
                 [intros _ Hp; vm_compute in Hp; discriminate Hp|]
             end.
      discriminate.
    + now rewrite Hp.
  - unfold getCredentialTypeLabel at 1. rewrite (not_prototype_key type Hp).
    cbn [own_property credential_type_labels].
    repeat match goal with
           | |- context [String.eqb ?k type] =>
               destruct (String.eqb_spec k type) as [<-|?];
               [eexists; split; [reflexivity|];
                split; [now left|]; split; [discriminate|reflexivity]|]
           end.
    exists type. split; [reflexivity|].
    assert (Hown : own_property credential_type_labels type = None).
    { cbn [own_property credential_type_labels].
      repeat match goal with
             | |- context [String.eqb ?k type] =>
                 destruct (String.eqb_spec k type) as [<-|?]; [congruence|]
             end.
      reflexivity. }
    split; [right; now split|].
    split; [now destruct type|].
    unfold getCredentialTypeLabel.
    now rewrite (not_prototype_key type Hp), Hown.
Qed.

(** X14: for the types of the table, the label is "OAuth" exactly when the
    type contains "oauth", that is, exactly when the refresh button can be
    shown. *)
Theorem OAuth_label_iff_isOAuth (c : CredentialDisplay) :
  In (credential_type c) (map fst credential_type_labels) ->
  (getCredentialTypeLabel (credential_type c) = Text "OAuth"
   <-> isOAuth c = true)
  /\ (showsRefreshToken c true = true
      <-> getCredentialTypeLabel (credential_type c) = Text "OAuth").
Proof.
  unfold showsRefreshToken, isOAuth. rewrite andb_true_r.
  cbn [map fst credential_type_labels In].
  intros H.
  repeat (destruct H as [<-|H];
          [cbv; repeat split; trivial; discriminate|]).
  destruct H.
Qed.

Lemma OAuth_label_iff_isOAuth_witness :
  (getCredentialTypeLabel "iflow_cookie" = Text "OAuth"
   <-> isOAuth {| uuid := "1"; credential_type := "iflow_cookie" |} = true)
  /\ (showsRefreshToken kiro_credential true = true
      <-> getCredentialTypeLabel "kiro_oauth" = Text "OAuth").
Proof.
  split.
  - refine (proj1 (OAuth_label_iff_isOAuth
                     {| uuid := "1"; credential_type := "iflow_cookie" |} _)).
    cbn. tauto.
  - refine (proj2 (OAuth_label_iff_isOAuth kiro_credential _)).
    cbn. tauto.
Defined.

(** ** The last error message *)

(** X15: the box of a non-empty message holds its first 150 code units,
    followed by three full stops exactly when the message has more than
    150: a message of at most 150 code units is shown whole, and the box
    never holds more than 153. *)
Theorem last_error_message_box_bounds
    {code_unit : Type} (full_stop : code_unit) (msg : list code_unit) :
  msg <> [] ->
  exists shown,
    last_error_message_box full_stop (Some msg) = Some shown
    /\ firstn 150 shown = firstn 150 msg
    /\ length shown
       = (if Nat.ltb 150 (length msg) then 153 else length msg)
    /\ length shown <= 153
    /\ (length msg <= 150 -> shown = msg)
    /\ (150 < length msg ->
        shown = firstn 150 msg ++ [full_stop; full_stop; full_stop]).
Proof.
  intros Hne. unfold last_error_message_box, slice_from_0.
  destruct msg as [|u rest]; [now elim Hne|].
  set (msg := u :: rest). eexists. split; [reflexivity|].
  destruct (Nat.ltb_spec 150 (length msg)) as [Hlong|Hshort].
  - assert (Hlen : length (firstn 150 msg) = 150)
      by (apply firstn_length_le; lia).
    repeat split.
    + rewrite firstn_app, Hlen, Nat.sub_diag, firstn_firstn.
      cbn [firstn]. now rewrite app_nil_r.
    + rewrite length_app, Hlen. reflexivity.
    + rewrite length_app, Hlen. cbn. lia.
    + intros Hle. exfalso. lia.
  - rewrite app_nil_r, (firstn_all2 msg Hshort).
    repeat split; try lia.
    now apply firstn_all2.
Qed.

Lemma last_error_message_box_bounds_witness :
  exists shown,
    last_error_message_box 46%N (Some (repeat 101%N 151)) = Some shown
    /\ firstn 150 shown = firstn 150 (repeat 101%N 151)
    /\ length shown = 153
    /\ length shown <= 153
    /\ (length (repeat 101%N 151) <= 150 -> shown = repeat 101%N 151)
    /\ (150 < length (repeat 101%N 151) ->
        shown = firstn 150 (repeat 101%N 151) ++ [46%N; 46%N; 46%N]).
Proof.
  refine (last_error_message_box_bounds 46%N (repeat 101%N 151) _).
  discriminate.
Defined.
